(** * Room membership endpoints of the messaging backend

    A shallow embedding of [backend/endpoints/rooms.py]: the handlers
    [add_to_room], [remove_member] and the helper [remove_mem], together
    with the part of the document store and of the background-task queue
    that they act on.

    Python dictionaries that are only looked up, counted and updated
    ([room["room_members"]]) are finite maps; the request body
    [new_member], whose keys are iterated in order, is an association
    list.  Handlers are computations in a state-and-exception monad:
    raising an exception keeps whatever has been written so far. *)

From Stdlib Require Import ZArith.
From stdpp Require Import gmap strings list fin_maps.

Local Open Scope Z_scope.
Local Open Scope string_scope.

(** ** Exceptions and the handler monad *)

(** [HTTPException] as raised by the handlers; [AttributeError] and
    [TypeError] are the interpreter's own, and reach the client as an
    internal server error. *)
Inductive Exception :=
| HTTPException (status_code : Z) (detail : string)
| AttributeError
| TypeError.

Definition M (S A : Type) : Type := S → (Exception + A) * S.

#[global] Instance M_ret {S} : MRet (M S) := λ A a s, (inr a, s).

#[global] Instance M_bind {S} : MBind (M S) := λ A B k c s,
  match c s with
  | (inl e, s') => (inl e, s')
  | (inr a, s') => k a s'
  end.

Definition raise {S A} (e : Exception) : M S A := λ s, (inl e, s).

Definition get {S} : M S S := λ s, (inr s, s).

Definition modify {S} (f : S → S) : M S unit := λ s, (inr tt, f s).

(** ** schema.room *)

Inductive Role := MEMBER | ADMIN.

Inductive RoomType := DM | GROUP_DM | CHANNEL.

Record RoomMember := { role : Role }.

Record Room := {
  id : string;
  org_id : string;
  room_type : RoomType;
  created_by : string;
  room_members : gmap string RoomMember;
}.

Record AddToRoom := { new_member : list (string * RoomMember) }.

#[global] Instance Role_eq_dec : EqDecision Role.
Proof. solve_decision. Defined.

#[global] Instance RoomType_eq_dec : EqDecision RoomType.
Proof. solve_decision. Defined.

#[global] Instance RoomMember_eq_dec : EqDecision RoomMember.
Proof. solve_decision. Defined.

Definition set_room_members (m : gmap string RoomMember) (r : Room) : Room :=
  {| id := id r; org_id := org_id r; room_type := room_type r;
     created_by := created_by r; room_members := m |}.

(** ** Python dictionaries *)

(** [d.keys()], in insertion order. *)
Definition keys {V} (d : list (string * V)) : list string := d.*1.

(** [d.get(k)]: [None] when the key is absent. *)
Fixpoint dict_get {V} (d : list (string * V)) (k : string) : option V :=
  match d with
  | [] => None
  | (k', v) :: d' => if decide (k' = k) then Some v else dict_get d' k
  end.

(** [m.update(d)]: the entries of [d] are written into [m] one after the
    other, each replacing an entry of the same key. *)
Definition update {V} (d : list (string * V)) (m : gmap string V) : gmap string V :=
  foldl (λ acc kv, <[kv.1 := kv.2]> acc) m d.

(** [len(m.keys())]. *)
Definition len {V} (m : gmap string V) : Z := Z.of_nat (size m).

(** ** utils.db, utils.room_utils, utils.centrifugo *)

(** The body of a store update: [add_to_room] sends the membership
    mapping alone, [remove_mem] the whole room document. *)
Inductive Payload :=
| room_members_data (m : gmap string RoomMember)
| room_data (r : Room).

(** A pending call [DataStorage(org).update(ROOM_COLLECTION, document_id, data)]. *)
Record UpdateCall := {
  organization_id : string;
  document_id : string;
  data : Payload;
}.

(** The Python values that the store client hands to a handler: [None],
    a reply dictionary, or the coroutine object of a call that has not
    been awaited. *)
Inductive PyObject :=
| PyNone
| PyDict (d : list (string * Z))
| PyCoroutine (call : UpdateCall).

(** How ZC Core answers a write. *)
Inductive CoreStatus :=
| Up
| Unreachable
| Refuses (code : Z).

Inductive Events := ROOM_MEMBER_ADD.

(** [centrifugo_client.publish(room=..., event=..., data=...)], queued. *)
Record Task := {
  publish_room : string;
  publish_event : Events;
  publish_data : list (string * RoomMember);
}.

Record World := {
  rooms : gmap (string * string) Room;
  zc_core : CoreStatus;
  requests : list UpdateCall;
  background_tasks : list Task;
}.

Definition set_rooms (f : gmap (string * string) Room → gmap (string * string) Room)
    (w : World) : World :=
  {| rooms := f (rooms w); zc_core := zc_core w;
     requests := requests w; background_tasks := background_tasks w |}.

Definition log_request (c : UpdateCall) (w : World) : World :=
  {| rooms := rooms w; zc_core := zc_core w;
     requests := requests w ++ [c]; background_tasks := background_tasks w |}.

(** [background_tasks.add_task(...)]. *)
Definition add_task (t : Task) : M World unit :=
  modify (λ w, {| rooms := rooms w; zc_core := zc_core w;
                  requests := requests w;
                  background_tasks := background_tasks w ++ [t] |}).

(** What a stored document becomes under an accepted update. *)
Definition apply_payload (p : Payload) (r : Room) : Room :=
  match p with
  | room_members_data m => set_room_members m r
  | room_data r' => r'
  end.

(** Modelled from the spec: [utils.room_utils.get_room] is not part of
    the sources.  It fetches the room of an organisation by id and
    returns the room document, a dictionary of its own, or no room. *)
Definition get_room (org_id room_id : string) : M World (option Room) :=
  w ← get; mret (rooms w !! (org_id, room_id)).

(** Modelled from the spec: [utils.db.DataStorage.update] is not part of
    the sources.  Calling it yields a coroutine; nothing reaches the
    store until the coroutine is awaited. *)
Definition DataStorage_update (org_id document_id : string) (data : Payload) : PyObject :=
  PyCoroutine {| organization_id := org_id; document_id := document_id; data := data |}.

(** Modelled from the spec: the store's side of an update.  An accepted
    write replaces the named fields of the document and is acknowledged
    with a reply that carries no [status_code]; a refused one is answered
    with its status code; an unreachable store yields [None]. *)
Definition perform (c : UpdateCall) : M World PyObject :=
  modify (log_request c);;
  w ← get;
  match zc_core w with
  | Up =>
      modify (set_rooms (alter (apply_payload (data c)) (organization_id c, document_id c)));;
      mret (PyDict [("status", 200)])
  | Unreachable => mret PyNone
  | Refuses code => mret (PyDict [("status_code", code)])
  end.

(** [await o]. *)
Definition await (o : PyObject) : M World PyObject :=
  match o with
  | PyCoroutine c => perform c
  | _ => raise TypeError
  end.

(** [o is None], [type(o) is dict], truthiness, and
    [o.get("status_code", None) is None]. *)
Definition is_None (o : PyObject) : bool :=
  match o with PyNone => true | _ => false end.

Definition type_is_dict (o : PyObject) : bool :=
  match o with PyDict _ => true | _ => false end.

Definition truthy (o : PyObject) : bool :=
  match o with
  | PyNone => false
  | PyDict d => bool_decide (d ≠ [])
  | PyCoroutine _ => true
  end.

Definition status_code_is_None (o : PyObject) : M World bool :=
  match o with
  | PyDict d => mret (bool_decide (dict_get d "status_code" = None))
  | _ => raise AttributeError
  end.

(** ** fastapi.responses and schema.response *)

(** The body of a response: the room as it is, or the room wrapped by
    [ResponseModel.success(data=..., message=...)]. *)
Inductive Content :=
| room_content (room : Room)
| success (data : Room) (message : string).

Record JSONResponse := {
  content : Content;
  status_code : Z;
}.

(** ** endpoints.rooms *)

(** Lines 116-123 of [add_to_room]: the loop over [list(new_member.keys())],
    run on the membership dictionary of the fetched room.  The size test
    precedes every single insertion.  [person] ranges over the keys of
    [new_member], so [new_member.get(str(person))] always finds a value. *)
Fixpoint group_dm_loop (new_member : list (string * RoomMember)) (persons : list string)
    : M (gmap string RoomMember) unit :=
  match persons with
  | [] => mret tt
  | person :: persons' =>
      members ← get;
      if bool_decide (9 ≤ len members)%Z then
        raise (HTTPException 400 "the max number for a Group_DM is 9")
      else
        match dict_get new_member person with
        | Some v => modify (update [(person, v)])
        | None => mret tt
        end;;
        group_dm_loop new_member persons'
  end.

(** Runs a computation on [room["room_members"]].  The dictionary belongs
    to the request: when the computation raises, the exception goes up and
    the dictionary is dropped with the request. *)
Definition on_room_members {A} (c : M (gmap string RoomMember) A) (room : Room)
    : M World Room :=
  λ w, match c (room_members room) with
       | (inl e, _) => (inl e, w)
       | (inr _, m) => (inr (set_room_members m room), w)
       end.

(** Lines 100-123 of [add_to_room]: fetch, the checks on the room type and
    on the requesting member, and the merge into the fetched room. *)
Definition add_to_room_checks (data : AddToRoom) (org_id room_id member_id : string)
    : M World Room :=
  let new_member := new_member data in
  room ← get_room org_id room_id;
  member ← match room with
           | None => raise AttributeError
           | Some room => mret (room_members room !! member_id)
           end;
  match room with
  | None => raise (HTTPException 403 "DM room or not found")
  | Some room =>
      if bool_decide (room_type room = DM) then
        raise (HTTPException 403 "DM room or not found")
      else if bool_decide (member = None) || bool_decide (role <$> member ≠ Some ADMIN) then
        raise (HTTPException 401 "member not in room or not an admin")
      else
        room ← (if bool_decide (room_type room = CHANNEL)
                then on_room_members (modify (update new_member)) room
                else mret room);
        if bool_decide (room_type room = GROUP_DM)
        then on_room_members (group_dm_loop new_member (keys new_member)) room
        else mret room
  end.

(** Lines 125-139 of [add_to_room]: the store update, the notification and
    the response. *)
Definition add_to_room_persist (data : AddToRoom) (org_id room_id : string) (room : Room)
    : M World JSONResponse :=
  let new_member := new_member data in
  update_res ← await (DataStorage_update org_id room_id
                        (room_members_data (room_members room)));
  add_task {| publish_room := room_id; publish_event := ROOM_MEMBER_ADD;
              publish_data := new_member |};;
  ok ← (if truthy update_res then status_code_is_None update_res else mret false);
  if ok : bool then mret {| content := room_content room; status_code := 200 |}
  else raise (HTTPException 424 "failed to add new members to room").

Definition add_to_room (data : AddToRoom) (org_id room_id member_id : string)
    : M World JSONResponse :=
  room ← add_to_room_checks data org_id room_id member_id;
  add_to_room_persist data org_id room_id room.

(** [o.name] for a dictionary [o] and a [name] that is no attribute of
    [dict]: the lookup raises.  The room that [get_room] returns and its
    members are dictionaries: [add_to_room] and the removal handlers read
    them by key ([room["room_type"]], [member["role"]],
    [room_obj["room_members"]]), and [remove_mem] declares [room_obj: dict]. *)
Definition dict_getattr {D A} (o : D) (name : string) : M World A :=
  raise AttributeError.

(** [remove_mem]: the call of [DB.update] on line 152 is not awaited, so
    [update_room] is the coroutine object itself and the test of line 154
    fails; building the response, line 161 looks up [room_obj.dict]. *)
Definition remove_mem (room_obj : Room) (mem_id org_id : string) : M World JSONResponse :=
  match room_members room_obj !! mem_id with
  | None => raise (HTTPException 404 "user not a member of the room")
  | Some _ =>
      let room_obj := set_room_members (delete mem_id (room_members room_obj)) room_obj in
      let update_room := DataStorage_update org_id (id room_obj) (room_data room_obj) in
      if is_None update_room || type_is_dict update_room then
        raise (HTTPException 424 "unable to remove room member")
      else
        data ← dict_getattr room_obj "dict";
        mret {| content := success data "member removed successfully from room";
                status_code := 200 |}
  end.

(** [remove_member]: line 215 looks up [member.role] on the member fetched
    on line 213. *)
Definition remove_member (org_id member_id room_id mem_id : string) : M World JSONResponse :=
  room_obj ← get_room org_id room_id;
  match room_obj with
  | None => raise (HTTPException 404 "room does not exist")
  | Some room_obj =>
      if bool_decide (room_type room_obj ≠ CHANNEL) then
        raise (HTTPException 403 "unable to remove room member")
      else if bool_decide (room_members room_obj !! member_id = None) then
        raise (HTTPException 404 "user not a member of the room")
      else if bool_decide (member_id = mem_id) then
        remove_mem room_obj member_id org_id
      else
        let member := room_members room_obj !! member_id in
        member_role ← dict_getattr member "role";
        if bool_decide (member_role ≠ ADMIN) then
          raise (HTTPException 403 "unable to remove room member")
        else remove_mem room_obj mem_id org_id
  end.

(** The two membership operations of the HTTP surface. *)
Inductive Operation :=
| AddMembers (data : AddToRoom) (org_id room_id member_id : string)
| RemoveMember (org_id member_id room_id mem_id : string).

Definition handle (op : Operation) : M World JSONResponse :=
  match op with
  | AddMembers data org_id room_id member_id => add_to_room data org_id room_id member_id
  | RemoveMember org_id member_id room_id mem_id => remove_member org_id member_id room_id mem_id
  end.

(** Requests served one after the other; the responses are dropped. *)
Fixpoint serve (ops : list Operation) (w : World) : World :=
  match ops with
  | [] => w
  | op :: ops' => serve ops' (handle op w).2
  end.

(** ** Vocabulary of the statements *)

(** The requesting member is a current member of the room with role ADMIN. *)
Definition admin_of (room : Room) (member_id : string) : Prop :=
  role <$> room_members room !! member_id = Some ADMIN.

#[global] Instance admin_of_dec room member_id : Decision (admin_of room member_id).
Proof. unfold admin_of. apply _. Defined.

(** The membership mapping that the store holds for a room. *)
Definition persisted_members (w : World) (org_id room_id : string)
    : option (gmap string RoomMember) :=
  room_members <$> rooms w !! (org_id, room_id).

(** The world once [add_to_room] has sent its update and queued its
    notification, before the store has acted on the update. *)
Definition sent (data : AddToRoom) (org_id room_id : string) (room : Room) (w : World) : World :=
  {| rooms := rooms w; zc_core := zc_core w;
     requests := requests w ++ [ {| organization_id := org_id; document_id := room_id;
                                    data := room_members_data (room_members room) |} ];
     background_tasks := background_tasks w ++
       [ {| publish_room := room_id; publish_event := ROOM_MEMBER_ADD;
            publish_data := new_member data |} ] |}.

(** ** Sample rooms *)

Definition member_with (r : Role) : RoomMember := {| role := r |}.

Definition sample_dm : Room :=
  {| id := "dm"; org_id := "org"; room_type := DM; created_by := "alice";
     room_members := list_to_map [("alice", member_with ADMIN); ("bob", member_with MEMBER)] |}.

Definition sample_channel : Room :=
  {| id := "general"; org_id := "org"; room_type := CHANNEL; created_by := "alice";
     room_members := list_to_map [("alice", member_with ADMIN); ("bob", member_with MEMBER);
                                  ("carol", member_with MEMBER)] |}.

Definition eight : list (string * RoomMember) :=
  [("u1", member_with ADMIN); ("u2", member_with MEMBER); ("u3", member_with MEMBER);
   ("u4", member_with MEMBER); ("u5", member_with MEMBER); ("u6", member_with MEMBER);
   ("u7", member_with MEMBER); ("u8", member_with MEMBER)].

Definition sample_group8 : Room :=
  {| id := "team8"; org_id := "org"; room_type := GROUP_DM; created_by := "u1";
     room_members := list_to_map eight |}.

Definition sample_group9 : Room :=
  {| id := "team9"; org_id := "org"; room_type := GROUP_DM; created_by := "u1";
     room_members := list_to_map (eight ++ [("u9", member_with MEMBER)]) |}.

Definition sample_world (core : CoreStatus) : World :=
  {| rooms := list_to_map [(("org", "dm"), sample_dm); (("org", "general"), sample_channel);
                           (("org", "team8"), sample_group8); (("org", "team9"), sample_group9)];
     zc_core := core; requests := []; background_tasks := [] |}.

(** ** Further vocabulary *)


(** The entries that the loop writes when it runs to its end. *)
Definition written (new_member : list (string * RoomMember)) (persons : list string)
    (m : gmap string RoomMember) : gmap string RoomMember :=
  foldl (λ acc person, match dict_get new_member person with
                       | Some v => <[person := v]> acc
                       | None => acc
                       end) m persons.

(** A request that is no AddMembers of another member on the room
    [(org_id, room_id)]. *)
Definition leaves_room_to (org_id room_id member_id : string) (op : Operation) : Prop :=
  match op with
  | AddMembers _ o r m => o = org_id → r = room_id → m = member_id
  | RemoveMember _ _ _ _ => True
  end.

(** * Properties *)

Ltac unfold_M :=
  unfold mbind, mret, M_bind, M_ret, raise, get, modify in *; simpl in *.

Section dictionaries.
Context {V : Type}.
Implicit Types (d : list (string * V)) (m : gmap string V).

Lemma update_cons k v d m : update ((k, v) :: d) m = update d (<[k := v]> m).
Proof. reflexivity. Qed.

Lemma update_union d m : NoDup (keys d) → update d m = list_to_map d ∪ m.
Proof.
  revert m. induction d as [|[k v] d IH]; intros m Hnd.
  - simpl. by rewrite (left_id_L ∅ (∪)).
  - rewrite update_cons. unfold keys in *. simpl in Hnd.
    apply NoDup_cons in Hnd as [Hk Hnd].
    rewrite IH by done. simpl.
    rewrite <-insert_union_r.
    2: { by apply not_elem_of_list_to_map_1. }
    by rewrite insert_union_l.
Qed.

Lemma dict_get_keys d k : k ∈ keys d → is_Some (dict_get d k).
Proof.
  induction d as [|[k' v] d IH]; simpl.
  - by intros ?%elem_of_nil.
  - intros Hin. case_decide; [by eexists|].
    apply elem_of_cons in Hin as [->|Hin]; [done|]. by apply IH.
Qed.
End dictionaries.

Lemma add_to_room_checks_world data org_id room_id member_id w :
  (add_to_room_checks data org_id room_id member_id w).2 = w.
Proof.
  unfold add_to_room_checks, get_room, on_room_members. unfold_M.
  destruct (rooms w !! (org_id, room_id)) as [room|]; simpl; [|done].
  repeat (case_bool_decide; simpl; try done);
  repeat (destruct (_ || _); simpl; try done);
  repeat (case_bool_decide; simpl; try done);
  repeat (destruct (group_dm_loop _ _ _) as [[?|?] ?]; simpl; try done).
Qed.

Lemma admin_check (member : option RoomMember) :
  bool_decide (member = None) || bool_decide (role <$> member ≠ Some ADMIN)
  = negb (bool_decide (role <$> member = Some ADMIN)).
Proof. by destruct member as [[[]]|]. Qed.

Lemma add_to_room_checks_eq data org_id room_id member_id w :
  add_to_room_checks data org_id room_id member_id w =
  (match rooms w !! (org_id, room_id) with
   | None => inl AttributeError
   | Some room =>
       match room_type room with
       | DM => inl (HTTPException 403 "DM room or not found")
       | CHANNEL =>
           if decide (admin_of room member_id)
           then inr (set_room_members (update (new_member data) (room_members room)) room)
           else inl (HTTPException 401 "member not in room or not an admin")
       | GROUP_DM =>
           if decide (admin_of room member_id)
           then match group_dm_loop (new_member data) (keys (new_member data))
                        (room_members room) with
                | (inl e, _) => inl e
                | (inr _, m) => inr (set_room_members m room)
                end
           else inl (HTTPException 401 "member not in room or not an admin")
       end
   end, w).
Proof.
  unfold add_to_room_checks, get_room, on_room_members. unfold_M.
  destruct (rooms w !! (org_id, room_id)) as [room|]; simpl; [|done].
  rewrite admin_check.
  destruct (room_type room) eqn:Ht; simpl; [done|..];
    (destruct (decide (admin_of room member_id)) as [Ha|Ha];
     [rewrite (bool_decide_eq_true_2 _ Ha)|rewrite (bool_decide_eq_false_2 _ Ha)]);
    simpl; rewrite ?Ht; simpl; try done;
    destruct (group_dm_loop _ _ _) as [[?|?] ?]; done.
Qed.

Lemma add_to_room_persist_eq data org_id room_id room w :
  add_to_room_persist data org_id room_id room w =
  match zc_core w with
  | Up => (inr {| content := room_content room; status_code := 200 |},
           set_rooms (alter (set_room_members (room_members room)) (org_id, room_id))
             (sent data org_id room_id room w))
  | _ => (inl (HTTPException 424 "failed to add new members to room"),
          sent data org_id room_id room w)
  end.
Proof.
  unfold add_to_room_persist, await, DataStorage_update, perform, add_task, sent.
  unfold_M. destruct (zc_core w) eqn:Hz; simpl; rewrite ?Hz; simpl; try done.
Qed.

Lemma add_to_room_eq data org_id room_id member_id w :
  add_to_room data org_id room_id member_id w =
  match (add_to_room_checks data org_id room_id member_id w).1 with
  | inl e => (inl e, w)
  | inr room => add_to_room_persist data org_id room_id room w
  end.
Proof.
  unfold add_to_room. unfold_M.
  pose proof (add_to_room_checks_world data org_id room_id member_id w) as Hw.
  destruct (add_to_room_checks _ _ _ _ _) as [[e|room] w']; simpl in *; by subst.
Qed.

Lemma remove_mem_eq room_obj mem_id org_id w :
  remove_mem room_obj mem_id org_id w =
  (match room_members room_obj !! mem_id with
   | None => inl (HTTPException 404 "user not a member of the room")
   | Some _ => inl AttributeError
   end, w).
Proof. unfold remove_mem. by destruct (_ !! _). Qed.

Lemma remove_member_world org_id member_id room_id mem_id w :
  (remove_member org_id member_id room_id mem_id w).2 = w.
Proof.
  unfold remove_member, get_room, dict_getattr. unfold_M.
  destruct (rooms w !! (org_id, room_id)) as [room|]; simpl; [|done].
  repeat (case_bool_decide; simpl; try done); by rewrite ?remove_mem_eq.
Qed.

(** ** The size limit of group rooms *)

Lemma group_dm_loop_full new_member person persons (m : gmap string RoomMember) :
  (9 ≤ len m)%Z →
  group_dm_loop new_member (person :: persons) m
  = (inl (HTTPException 400 "the max number for a Group_DM is 9"), m).
Proof.
  intros Hlen. simpl. unfold_M. by rewrite bool_decide_eq_true_2.
Qed.

Lemma group_dm_loop_step new_member person persons v (m : gmap string RoomMember) :
  (len m < 9)%Z → dict_get new_member person = Some v →
  group_dm_loop new_member (person :: persons) m
  = group_dm_loop new_member persons (<[person := v]> m).
Proof.
  intros Hlen Hget. simpl. unfold_M.
  rewrite bool_decide_eq_false_2 by lia. by rewrite Hget.
Qed.

(** ** What the handlers leave untouched *)

Lemma add_to_room_exception_rooms data org_id room_id member_id w e :
  (add_to_room data org_id room_id member_id w).1 = inl e →
  rooms (add_to_room data org_id room_id member_id w).2 = rooms w.
Proof.
  rewrite add_to_room_eq.
  destruct (add_to_room_checks _ _ _ _ _).1 as [e'|room]; [done|].
  rewrite add_to_room_persist_eq. by destruct (zc_core w).
Qed.

Lemma add_to_room_denial_world data org_id room_id member_id w code detail :
  (add_to_room data org_id room_id member_id w).1 = inl (HTTPException code detail) →
  code ≠ 424%Z →
  (add_to_room data org_id room_id member_id w).2 = w.
Proof.
  rewrite add_to_room_eq.
  destruct (add_to_room_checks _ _ _ _ _).1 as [e'|room]; [done|].
  rewrite add_to_room_persist_eq. destruct (zc_core w); simpl; congruence.
Qed.

Lemma add_to_room_checks_not_DM data org_id room_id member_id w room' :
  (add_to_room_checks data org_id room_id member_id w).1 = inr room' →
  ∃ room, rooms w !! (org_id, room_id) = Some room ∧ room_type room ≠ DM.
Proof.
  rewrite add_to_room_checks_eq. simpl.
  destruct (rooms w !! (org_id, room_id)) as [room|]; [|done].
  intros H. exists room. split; [done|]. intros Ht. by rewrite Ht in H.
Qed.

Lemma add_to_room_keeps_DM data org_id room_id member_id w k room :
  rooms w !! k = Some room → room_type room = DM →
  rooms (add_to_room data org_id room_id member_id w).2 !! k = Some room.
Proof.
  intros Hk Ht. rewrite add_to_room_eq.
  destruct (add_to_room_checks _ _ _ _ _).1 as [e'|room'] eqn:Hc; [done|].
  apply add_to_room_checks_not_DM in Hc as (room0 & Hroom0 & Hne).
  rewrite add_to_room_persist_eq. destruct (zc_core w); simpl; try done.
  rewrite lookup_alter_ne; [done|]. intros <-. congruence.
Qed.

Lemma group_dm_loop_exception new_member persons (m : gmap string RoomMember) e :
  (group_dm_loop new_member persons m).1 = inl e →
  e = HTTPException 400 "the max number for a Group_DM is 9".
Proof.
  revert m. induction persons as [|person persons IH]; intros m; simpl; [done|].
  unfold_M. case_bool_decide; simpl; [congruence|].
  destruct (dict_get new_member person); simpl; apply IH.
Qed.

Lemma group_dm_loop_403 new_member persons (m : gmap string RoomMember) e detail :
  (group_dm_loop new_member persons m).1 = inl e → e ≠ HTTPException 403 detail.
Proof. intros ->%group_dm_loop_exception. done. Qed.

Lemma handle_keeps_DM op w k room :
  rooms w !! k = Some room → room_type room = DM →
  rooms (handle op w).2 !! k = Some room.
Proof.
  intros Hk Ht. destruct op; simpl.
  - by apply add_to_room_keeps_DM.
  - by rewrite remove_member_world.
Qed.

Lemma remove_member_not_CHANNEL org_id member_id room_id mem_id w room :
  rooms w !! (org_id, room_id) = Some room → room_type room ≠ CHANNEL →
  (remove_member org_id member_id room_id mem_id w).1
  = inl (HTTPException 403 "unable to remove room member").
Proof.
  intros Hk Ht. unfold remove_member, get_room. unfold_M. rewrite Hk. simpl.
  by rewrite bool_decide_eq_true_2.
Qed.

(** C3: a DM room is never changed by the membership operations.  Whatever
    sequence of AddMembers and RemoveMember requests is served, on this room
    or on any other, the stored DM room stays as it was, so it keeps its two
    members; every AddMembers on it is refused with 403 whoever asks, and
    every RemoveMember on a room that is not a CHANNEL is refused with 403. *)
Theorem dm_room_never_mutated (ops : list Operation) w org_id room_id room :
  rooms w !! (org_id, room_id) = Some room →
  room_type room = DM →
  rooms (serve ops w) !! (org_id, room_id) = Some room
  ∧ (size (room_members room) = 2%nat →
     ∃ room', rooms (serve ops w) !! (org_id, room_id) = Some room'
              ∧ size (room_members room') = 2%nat)
  ∧ (∀ data member_id,
       (add_to_room data org_id room_id member_id w).1
       = inl (HTTPException 403 "DM room or not found"))
  ∧ (∀ o r other member_id mem_id,
       rooms w !! (o, r) = Some other → room_type other ≠ CHANNEL →
       (remove_member o member_id r mem_id w).1
       = inl (HTTPException 403 "unable to remove room member")).
Proof.
  intros Hk Ht.
  assert (rooms (serve ops w) !! (org_id, room_id) = Some room) as Hinv.
  { revert w Hk. induction ops as [|op ops IH]; intros w Hk; simpl; [done|].
    apply IH. by apply handle_keeps_DM. }
  split_and!.
  - done.
  - intros Hsize. by exists room.
  - intros data member_id. rewrite add_to_room_eq, add_to_room_checks_eq. simpl.
    by rewrite Hk, Ht.
  - intros o r other member_id mem_id Ho Hne. by eapply remove_member_not_CHANNEL.
Qed.

Lemma dm_room_never_mutated_witness :
  let ops :=
    [AddMembers {| new_member := [("carol", member_with MEMBER)] |} "org" "dm" "alice";
     RemoveMember "org" "alice" "dm" "bob";
     AddMembers {| new_member := [("dave", member_with MEMBER)] |} "org" "general" "alice";
     RemoveMember "org" "bob" "general" "bob"] in
  rooms (serve ops (sample_world Up)) !! ("org", "dm") = Some sample_dm.
Proof.
  refine (proj1 (dm_room_never_mutated _ (sample_world Up) "org" "dm" sample_dm _ _));
    vm_compute; reflexivity.
Defined.

(** C4: a denial leaves no trace.  When AddMembers or RemoveMember is refused
    with 400, 401, 403 or 404, the world after the request is the world
    before it: the stored rooms are the same, no update was sent to the
    store, and no notification was queued. *)
Theorem denial_precedes_persistence op w code detail :
  (handle op w).1 = inl (HTTPException code detail) →
  code ∈ [400; 401; 403; 404]%Z →
  (handle op w).2 = w.
Proof.
  intros Hout Hcode. destruct op; simpl in *.
  - eapply add_to_room_denial_world; [done|].
    intros ->. rewrite !elem_of_cons, elem_of_nil in Hcode. lia.
  - apply remove_member_world.
Qed.

Lemma denial_precedes_persistence_witness :
  let op := AddMembers {| new_member := [("n1", member_with MEMBER); ("n2", member_with MEMBER)] |}
              "org" "team8" "u1" in
  (handle op (sample_world Up)).2 = sample_world Up.
Proof.
  refine (denial_precedes_persistence _ (sample_world Up) 400
            "the max number for a Group_DM is 9" _ _).
  - vm_compute. reflexivity.
  - apply (bool_decide_unpack _). vm_compute. exact I.
Defined.

(** C10: in AddMembers the fetched room is dereferenced before it is tested.
    For a room that does not exist the request ends in an AttributeError,
    never in the 403 answer; whenever the 403 answer is given, the room
    exists and is a DM room. *)
Theorem add_to_room_missing_room data org_id room_id member_id w :
  (rooms w !! (org_id, room_id) = None →
   add_to_room data org_id room_id member_id w = (inl AttributeError, w))
  ∧ (∀ detail,
       (add_to_room data org_id room_id member_id w).1 = inl (HTTPException 403 detail) →
       ∃ room, rooms w !! (org_id, room_id) = Some room ∧ room_type room = DM).
Proof.
  split.
  - intros Hk. by rewrite add_to_room_eq, add_to_room_checks_eq, Hk.
  - intros detail. rewrite add_to_room_eq, add_to_room_checks_eq. simpl.
    destruct (rooms w !! (org_id, room_id)) as [room|]; [|done].
    intros H. exists room. split; [done|].
    destruct (room_type room) eqn:Ht; [done|..].
    + destruct (decide _); [|done].
      pose proof (group_dm_loop_403 (new_member data) (keys (new_member data))
                    (room_members room)) as Hloop.
      destruct (group_dm_loop _ _ _) as [[e|?] m]; simpl in *.
      * exfalso. eapply Hloop; [done|]. by inversion H.
      * rewrite add_to_room_persist_eq in H. by destruct (zc_core w).
    + destruct (decide _); [|done].
      rewrite add_to_room_persist_eq in H. by destruct (zc_core w).
Qed.

Lemma add_to_room_missing_room_witness :
  add_to_room {| new_member := [("carol", member_with MEMBER)] |} "org" "nowhere" "alice"
    (sample_world Up)
  = (inl AttributeError, sample_world Up).
Proof.
  refine (proj1 (add_to_room_missing_room _ "org" "nowhere" "alice" (sample_world Up)) _).
  vm_compute. reflexivity.
Defined.

(** ** Group rooms *)

(** C1, as the code has it: in a GROUP_DM room of 8 members an ADMIN adds
    two members.  The first one enters the working copy, which then has 9
    entries; the second one is refused; the request ends with 400; nothing
    is sent to the store, which still holds the 8 members. *)
Theorem group_dm_batch_over_limit w org_id room_id room member_id a b va vb :
  rooms w !! (org_id, room_id) = Some room →
  room_type room = GROUP_DM →
  size (room_members room) = 8%nat →
  admin_of room member_id →
  room_members room !! a = None →
  let data := {| new_member := [(a, va); (b, vb)] |} in
  let limit := HTTPException 400 "the max number for a Group_DM is 9" in
  group_dm_loop (new_member data) (keys (new_member data)) (room_members room)
    = (inl limit, <[a := va]> (room_members room))
  ∧ size (<[a := va]> (room_members room)) = 9%nat
  ∧ add_to_room data org_id room_id member_id w = (inl limit, w)
  ∧ size <$> persisted_members w org_id room_id = Some 8%nat.
Proof.
  intros Hk Ht Hsize Hadmin Ha data limit.
  assert (size (<[a := va]> (room_members room)) = 9%nat) as Hnine.
  { rewrite map_size_insert_None by done. lia. }
  assert (group_dm_loop (new_member data) (keys (new_member data)) (room_members room)
          = (inl limit, <[a := va]> (room_members room))) as Hloop.
  { change (group_dm_loop [(a, va); (b, vb)] [a; b] (room_members room)
            = (inl limit, <[a := va]> (room_members room))).
    rewrite (group_dm_loop_step _ a [b] va).
    - apply group_dm_loop_full. unfold len. lia.
    - unfold len. lia.
    - simpl. by rewrite decide_True. }
  split_and!; [done|done|..].
  - rewrite add_to_room_eq, add_to_room_checks_eq. cbn [fst]. rewrite Hk, Ht.
    rewrite decide_True by done. by rewrite Hloop.
  - unfold persisted_members. rewrite Hk. simpl. by rewrite Hsize.
Qed.

Lemma group_dm_batch_over_limit_witness :
  let data := {| new_member := [("n1", member_with MEMBER); ("n2", member_with MEMBER)] |} in
  add_to_room data "org" "team8" "u1" (sample_world Up)
  = (inl (HTTPException 400 "the max number for a Group_DM is 9"), sample_world Up).
Proof.
  refine (proj1 (proj2 (proj2
    (group_dm_batch_over_limit (sample_world Up) "org" "team8" sample_group8 "u1"
       "n1" "n2" (member_with MEMBER) (member_with MEMBER) _ _ _ _ _))));
    vm_compute; reflexivity.
Defined.

(** C1, as stated, fails: after the refused batch the store does not hold 9
    members for the room. *)
Lemma group_dm_batch_persisted_counterexample :
  let data := {| new_member := [("n1", member_with MEMBER); ("n2", member_with MEMBER)] |} in
  let out := add_to_room data "org" "team8" "u1" (sample_world Up) in
  size <$> persisted_members (sample_world Up) "org" "team8" = Some 8%nat
  ∧ out.1 = inl (HTTPException 400 "the max number for a Group_DM is 9")
  ∧ ¬ (size <$> persisted_members out.2 "org" "team8" = Some 9%nat).
Proof. vm_compute. split_and!; [done|done|]. intros [=]. Qed.

(** C2, as the code has it: in a GROUP_DM room of 9 members every non-empty
    AddMembers is refused and leaves the world as it was; the answer is 400
    when the requesting member is an ADMIN of the room and 401 when not. *)
Theorem group_dm_full_add_denied w org_id room_id room member_id data :
  rooms w !! (org_id, room_id) = Some room →
  room_type room = GROUP_DM →
  size (room_members room) = 9%nat →
  new_member data ≠ [] →
  add_to_room data org_id room_id member_id w
  = (inl (if decide (admin_of room member_id)
          then HTTPException 400 "the max number for a Group_DM is 9"
          else HTTPException 401 "member not in room or not an admin"), w).
Proof.
  intros Hk Ht Hsize Hne.
  rewrite add_to_room_eq, add_to_room_checks_eq. simpl. rewrite Hk, Ht.
  destruct (decide _); [|done].
  destruct (new_member data) as [|[person v] rest]; [done|].
  unfold keys. simpl fmap. rewrite group_dm_loop_full; [done|]. unfold len. lia.
Qed.

Lemma group_dm_full_add_denied_witness :
  add_to_room {| new_member := [("n1", member_with MEMBER)] |} "org" "team9" "u1"
    (sample_world Up)
  = (inl (HTTPException 400 "the max number for a Group_DM is 9"), sample_world Up).
Proof.
  refine (group_dm_full_add_denied (sample_world Up) "org" "team9" sample_group9 "u1"
            {| new_member := [("n1", member_with MEMBER)] |} _ _ _ _);
    vm_compute; done.
Defined.

(** C2, as stated, fails: a member of the full room who is no ADMIN is not
    answered with 400. *)
Lemma group_dm_full_add_counterexample :
  let data := {| new_member := [("n1", member_with MEMBER)] |} in
  let out := add_to_room data "org" "team9" "u2" (sample_world Up) in
  size <$> persisted_members (sample_world Up) "org" "team9" = Some 9%nat
  ∧ new_member data ≠ []
  ∧ out.1 = inl (HTTPException 401 "member not in room or not an admin")
  ∧ ¬ (∃ detail, out.1 = inl (HTTPException 400 detail)).
Proof. vm_compute. split_and!; [done|done|done|]. intros [detail [=]]. Qed.

(** ** Channels *)

(** C5: AddMembers on a CHANNEL room.  A requesting member who is no ADMIN
    of the room is refused with 401 and nothing changes.  For an ADMIN the
    checks pass whatever the sizes are, and the membership that results is
    the new members laid over the old ones; once the store has accepted it,
    the answer is 200 with that room and the store holds that membership. *)
Theorem channel_add_members w org_id room_id room member_id data :
  rooms w !! (org_id, room_id) = Some room →
  room_type room = CHANNEL →
  NoDup (keys (new_member data)) →
  let merged :=
    set_room_members (list_to_map (new_member data) ∪ room_members room) room in
  (¬ admin_of room member_id →
     add_to_room data org_id room_id member_id w
     = (inl (HTTPException 401 "member not in room or not an admin"), w))
  ∧ (admin_of room member_id →
       add_to_room_checks data org_id room_id member_id w = (inr merged, w)
       ∧ (zc_core w = Up →
            (add_to_room data org_id room_id member_id w).1
            = inr {| content := room_content merged; status_code := 200 |}
            ∧ rooms (add_to_room data org_id room_id member_id w).2
              = <[(org_id, room_id) := merged]> (rooms w)
            ∧ persisted_members (add_to_room data org_id room_id member_id w).2
                org_id room_id
              = Some (list_to_map (new_member data) ∪ room_members room))).
Proof.
  intros Hk Ht Hnd merged. split.
  - intros Hna. rewrite add_to_room_eq, add_to_room_checks_eq. cbn [fst].
    rewrite Hk, Ht. by rewrite decide_False.
  - intros Ha.
    assert (add_to_room_checks data org_id room_id member_id w = (inr merged, w)) as Hc.
    { rewrite add_to_room_checks_eq, Hk, Ht. rewrite decide_True by done.
      by rewrite update_union. }
    split; [done|]. intros Hup.
    rewrite add_to_room_eq, Hc. cbn [fst]. rewrite add_to_room_persist_eq, Hup.
    cbn [fst snd]. 
    assert (rooms (set_rooms (alter (set_room_members (room_members merged)) (org_id, room_id))
                     (sent data org_id room_id merged w))
            = <[(org_id, room_id) := merged]> (rooms w)) as Hrooms.
    { simpl. apply map_eq. intros k.
      destruct (decide (k = (org_id, room_id))) as [->|Hne].
      - by rewrite lookup_alter_eq, lookup_insert_eq, Hk.
      - by rewrite lookup_alter_ne, lookup_insert_ne. }
    split_and!; [done|done|].
    unfold persisted_members. rewrite Hrooms. by rewrite lookup_insert_eq.
Qed.

Lemma channel_add_members_witness :
  let data := {| new_member := [("dave", member_with MEMBER); ("bob", member_with ADMIN)] |} in
  persisted_members (add_to_room data "org" "general" "alice" (sample_world Up)).2
    "org" "general"
  = Some (list_to_map (new_member data) ∪ room_members sample_channel).
Proof.
  refine (proj2 (proj2 (proj2 (proj2
    (channel_add_members (sample_world Up) "org" "general" sample_channel "alice"
       {| new_member := [("dave", member_with MEMBER); ("bob", member_with ADMIN)] |}
       _ _ _) _) _)));
    try (vm_compute; reflexivity).
  apply (bool_decide_unpack _). vm_compute. exact I.
Defined.

(** C8: when the checks of AddMembers have passed and the store does not
    accept the update, the request ends with 424, the store keeps what it
    had, and the notification of the added members has been queued all the
    same. *)
Theorem add_to_room_store_failure w org_id room_id room member_id data :
  (add_to_room_checks data org_id room_id member_id w).1 = inr room →
  zc_core w ≠ Up →
  let out := add_to_room data org_id room_id member_id w in
  out.1 = inl (HTTPException 424 "failed to add new members to room")
  ∧ background_tasks out.2
    = (background_tasks w ++ [ {| publish_room := room_id; publish_event := ROOM_MEMBER_ADD;
                                  publish_data := new_member data |} ])%list
  ∧ rooms out.2 = rooms w.
Proof.
  intros Hc Hdown out. unfold out. rewrite add_to_room_eq, Hc, add_to_room_persist_eq.
  by destruct (zc_core w).
Qed.

Lemma add_to_room_store_failure_witness :
  let data := {| new_member := [("dave", member_with MEMBER)] |} in
  let out := add_to_room data "org" "general" "alice" (sample_world Unreachable) in
  out.1 = inl (HTTPException 424 "failed to add new members to room")
  ∧ background_tasks out.2
    = [ {| publish_room := "general"; publish_event := ROOM_MEMBER_ADD;
           publish_data := new_member data |} ]
  ∧ rooms out.2 = rooms (sample_world Unreachable).
Proof.
  refine (add_to_room_store_failure (sample_world Unreachable) "org" "general"
            (set_room_members (<["dave" := member_with MEMBER]> (room_members sample_channel))
               sample_channel)
            "alice" {| new_member := [("dave", member_with MEMBER)] |} _ _).
  - vm_compute. reflexivity.
  - vm_compute. discriminate.
Defined.

(** ** Removal *)

Lemma remove_member_eq org_id member_id room_id mem_id w :
  remove_member org_id member_id room_id mem_id w =
  (match rooms w !! (org_id, room_id) with
   | None => inl (HTTPException 404 "room does not exist")
   | Some room =>
       if decide (room_type room = CHANNEL) then
         if decide (is_Some (room_members room !! member_id))
         then inl AttributeError
         else inl (HTTPException 404 "user not a member of the room")
       else inl (HTTPException 403 "unable to remove room member")
   end, w).
Proof.
  unfold remove_member, get_room, dict_getattr. unfold_M.
  destruct (rooms w !! (org_id, room_id)) as [room|]; simpl; [|done].
  destruct (decide (room_type room = CHANNEL)) as [Ht|Ht].
  2: { by rewrite bool_decide_eq_true_2. }
  rewrite bool_decide_eq_false_2 by (by intros ?).
  destruct (decide (is_Some (room_members room !! member_id))) as [[member Hm]|Hm].
  - rewrite bool_decide_eq_false_2 by congruence.
    case_bool_decide as Hself; [|done].
    subst mem_id. by rewrite remove_mem_eq, Hm.
  - rewrite bool_decide_eq_true_2; [done|].
    destruct (room_members room !! member_id); [|done]. exfalso. apply Hm. by eexists.
Qed.

(** A member of a CHANNEL room who asks for a removal, of itself or of
    anybody else, gets an AttributeError, and nothing changes. *)
Lemma remove_member_by_member org_id member_id room_id mem_id w room :
  rooms w !! (org_id, room_id) = Some room →
  room_type room = CHANNEL →
  is_Some (room_members room !! member_id) →
  remove_member org_id member_id room_id mem_id w = (inl AttributeError, w).
Proof.
  intros Hk Ht Hm. rewrite remove_member_eq, Hk.
  by rewrite decide_True, decide_True.
Qed.

(** C6, where the code departs from it: in the CHANNEL room "general", with
    alice an ADMIN and bob and carol plain members, bob leaving the room,
    alice removing bob and bob removing carol all end in an AttributeError
    and change nothing: the first two are not served, the third is not
    answered with 403. *)
Theorem channel_removal_raises :
  let w := sample_world Up in
  rooms w !! ("org", "general") = Some sample_channel
  ∧ room_type sample_channel = CHANNEL
  ∧ room_members sample_channel !! "alice" = Some (member_with ADMIN)
  ∧ room_members sample_channel !! "bob" = Some (member_with MEMBER)
  ∧ room_members sample_channel !! "carol" = Some (member_with MEMBER)
  ∧ remove_member "org" "bob" "general" "bob" w = (inl AttributeError, w)
  ∧ remove_member "org" "alice" "general" "bob" w = (inl AttributeError, w)
  ∧ remove_member "org" "bob" "general" "carol" w = (inl AttributeError, w).
Proof.
  split_and!; try (vm_compute; reflexivity);
    (apply (remove_member_by_member _ _ _ _ _ sample_channel);
     [vm_compute; reflexivity|vm_compute; reflexivity|vm_compute; by eexists]).
Qed.

(** C9, as the code has it by design: RemoveMember with a target that is no
    member of the room is never served and leaves the world as it was.  In
    a room that is no CHANNEL the answer is 403; in a CHANNEL room of which
    the requesting member is no member either, the answer is 404. *)
Theorem remove_absent_target w org_id room_id room member_id mem_id :
  rooms w !! (org_id, room_id) = Some room →
  room_members room !! mem_id = None →
  let out := remove_member org_id member_id room_id mem_id w in
  out.2 = w
  ∧ (∀ response, out.1 ≠ inr response)
  ∧ (room_type room ≠ CHANNEL →
     out.1 = inl (HTTPException 403 "unable to remove room member"))
  ∧ (room_type room = CHANNEL → room_members room !! member_id = None →
     out.1 = inl (HTTPException 404 "user not a member of the room")).
Proof.
  intros Hk Htarget out. unfold out. rewrite remove_member_eq. cbn [fst snd].
  rewrite Hk. split_and!; [done|..].
  - intros response. by repeat destruct (decide _).
  - intros Ht. by rewrite decide_False.
  - intros Ht Hm. rewrite decide_True by done. rewrite decide_False; [done|].
    rewrite Hm. by intros [? ?].
Qed.

Lemma remove_absent_target_witness :
  (remove_member "org" "u1" "team8" "zed" (sample_world Up)).1
  = inl (HTTPException 403 "unable to remove room member").
Proof.
  refine (proj1 (proj2 (proj2
    (remove_absent_target (sample_world Up) "org" "team8" sample_group8
       "u1" "zed" _ _))) _);
    vm_compute; (reflexivity || discriminate).
Defined.

(** C9, as stated, fails: in a GROUP_DM room a target that is no member is
    answered with 403, not with 404. *)
Lemma remove_absent_target_counterexample :
  let out := (remove_member "org" "u1" "team8" "zed" (sample_world Up)).1 in
  rooms (sample_world Up) !! ("org", "team8") = Some sample_group8
  ∧ room_members sample_group8 !! "zed" = None
  ∧ out = inl (HTTPException 403 "unable to remove room member")
  ∧ ¬ (∃ detail, out = inl (HTTPException 404 detail)).
Proof. vm_compute. split_and!; [done|done|done|]. intros [detail [=]]. Qed.

(** ** The store behind a removal *)

(** No removal ever reaches the store or ends with 424. *)
Lemma remove_member_never_424 org_id member_id room_id mem_id w detail :
  (remove_member org_id member_id room_id mem_id w).2 = w
  ∧ (remove_member org_id member_id room_id mem_id w).1 ≠ inl (HTTPException 424 detail).
Proof.
  split; [apply remove_member_world|].
  rewrite remove_member_eq. cbn [fst].
  destruct (rooms w !! _) as [room|]; [|done]. by repeat destruct (decide _).
Qed.

(** C7, where the code departs from it: with the store unreachable, a member
    of a CHANNEL room leaves the room.  The request ends in an
    AttributeError, not in 424; no update has been sent to the store, whose
    state the handler never gets to see. *)
Theorem remove_member_store_unreachable :
  let w := sample_world Unreachable in
  let out := remove_member "org" "bob" "general" "bob" w in
  zc_core w = Unreachable
  ∧ out.1 = inl AttributeError
  ∧ ¬ (∃ detail, out.1 = inl (HTTPException 424 detail))
  ∧ requests out.2 = []
  ∧ out.2 = w.
Proof.
  vm_compute. split_and!; try done. intros [detail [=]].
Qed.

(** * Further properties of the membership endpoints *)

(** ** The loop of group rooms *)

Lemma len_insert_fresh (m : gmap string RoomMember) k v :
  m !! k = None → len (<[k := v]> m) = (len m + 1)%Z.
Proof. intros Hk. unfold len. rewrite map_size_insert_None by done. lia. Qed.

Lemma len_insert_le (m : gmap string RoomMember) k v :
  (len m ≤ len (<[k := v]> m) ≤ len m + 1)%Z.
Proof.
  unfold len. destruct (m !! k) eqn:Hk.
  - rewrite map_size_insert_Some by done. lia.
  - rewrite map_size_insert_None by done. lia.
Qed.

(** The working copy never shrinks, never loses a key and, started at 9
    entries or fewer, never holds more than 9, whether the loop ends or
    raises. *)
Lemma group_dm_loop_working_copy new_member persons (m : gmap string RoomMember) :
  let m' := (group_dm_loop new_member persons m).2 in
  dom m ⊆ dom m' ∧ (len m ≤ len m')%Z ∧ ((len m ≤ 9)%Z → (len m' ≤ 9)%Z).
Proof.
  revert m. induction persons as [|person persons IH]; intros m; simpl.
  { split_and!; [done|lia|done]. }
  unfold_M. case_bool_decide as Hfull; simpl.
  { split_and!; [done|lia|done]. }
  destruct (dict_get new_member person) as [v|]; simpl.
  - destruct (IH (<[person := v]> m)) as (Hdom & Hlen & Hcap).
    pose proof (len_insert_le m person v).
    unfold update. simpl.
    destruct (group_dm_loop new_member persons (<[person := v]> m)) as [[e|[]] m'] eqn:Hrun;
      simpl in *;
      (split_and!; [etrans; [apply (dom_insert_subseteq m person v)|done]|lia|lia]).
  - destruct (IH m) as (Hdom & Hlen & Hcap).
    destruct (group_dm_loop new_member persons m) as [[e|[]] m'] eqn:Hrun;
      simpl in *; done.
Qed.

Lemma group_dm_loop_done new_member persons (m m' : gmap string RoomMember) :
  group_dm_loop new_member persons m = (inr tt, m') → m' = written new_member persons m.
Proof.
  revert m. induction persons as [|person persons IH]; intros m; simpl.
  { unfold_M. congruence. }
  unfold_M. case_bool_decide; simpl; [done|].
  destruct (dict_get new_member person) as [v|]; simpl; apply IH.
Qed.

Lemma dict_get_app_r {V} (pre d : list (string * V)) k :
  k ∉ keys pre → dict_get (pre ++ d) k = dict_get d k.
Proof.
  induction pre as [|[k' v] pre IH]; simpl; [done|].
  unfold keys in *. simpl. intros Hk. apply not_elem_of_cons in Hk as [Hne Hk].
  rewrite decide_False by done. by apply IH.
Qed.

Lemma written_keys pre d (m : gmap string RoomMember) :
  NoDup (keys (pre ++ d)) → written (pre ++ d) (keys d) m = update d m.
Proof.
  revert pre m. induction d as [|[k v] d IH]; intros pre m Hnd; [done|].
  unfold written, keys in *. simpl.
  rewrite fmap_app in Hnd. simpl in Hnd.
  apply NoDup_app in Hnd as (Hpre & Hdisj & Hd).
  rewrite dict_get_app_r by (intros Hin; eapply Hdisj; [done|left]).
  simpl. rewrite decide_True by done.
  specialize (IH (pre ++ [(k, v)])%list (<[k := v]> m)).
  rewrite <-(assoc_L (++)) in IH. simpl in IH.
  change (update ((k, v) :: d) m) with (update d (<[k := v]> m)). apply IH.
  rewrite fmap_app. simpl. apply NoDup_app. split_and!; [done| |done].
  intros x Hx. by apply Hdisj.
Qed.

(** When the loop runs to its end on a request body with distinct keys, the
    working copy is the body laid over the old members, as after
    [update]. *)
Lemma group_dm_loop_union new_member (m m' : gmap string RoomMember) :
  NoDup (keys new_member) →
  group_dm_loop new_member (keys new_member) m = (inr tt, m') →
  m' = list_to_map new_member ∪ m.
Proof.
  intros Hnd Hrun. apply group_dm_loop_done in Hrun as ->.
  rewrite <-update_union by done. by apply (written_keys []).
Qed.

Lemma update_dom {V} (d : list (string * V)) (m : gmap string V) :
  dom m ⊆ dom (update d m).
Proof.
  revert m. induction d as [|[k v] d IH]; intros m; [done|].
  change (update ((k, v) :: d) m) with (update d (<[k := v]> m)).
  etrans; [apply (dom_insert_subseteq m k v)|apply IH].
Qed.

Lemma written_fresh new_member persons (m : gmap string RoomMember) :
  NoDup persons →
  (∀ p, p ∈ persons → m !! p = None ∧ is_Some (dict_get new_member p)) →
  len (written new_member persons m) = (len m + Z.of_nat (length persons))%Z.
Proof.
  revert m. induction persons as [|p persons IH]; intros m Hnd Hfresh.
  { simpl. lia. }
  apply NoDup_cons in Hnd as [Hp Hnd].
  destruct (Hfresh p) as [Hm [v Hv]]; [left|].
  unfold written in *. simpl. rewrite Hv. rewrite IH; [|done|].
  - rewrite len_insert_fresh by done. simpl length. lia.
  - intros q Hq. destruct (Hfresh q) as [Hmq Hdq]; [by right|].
    split; [|done]. rewrite lookup_insert_ne; [done|]. by intros ->.
Qed.

(** For persons that are all new to the room and pairwise distinct the
    loop runs to its end exactly when the room has place for all of them. *)
Lemma group_dm_loop_fresh new_member persons (m : gmap string RoomMember) :
  NoDup persons →
  (∀ p, p ∈ persons → m !! p = None ∧ is_Some (dict_get new_member p)) →
  group_dm_loop new_member persons m =
  if decide (persons = [] ∨ (len m + Z.of_nat (length persons) ≤ 9)%Z)
  then (inr tt, written new_member persons m)
  else (inl (HTTPException 400 "the max number for a Group_DM is 9"),
        (group_dm_loop new_member persons m).2).
Proof.
  revert m. induction persons as [|p persons IH]; intros m Hnd Hfresh.
  { by rewrite decide_True by auto. }
  apply NoDup_cons in Hnd as [Hp Hnd].
  destruct (Hfresh p) as [Hm [v Hv]]; [left|].
  assert (∀ q, q ∈ persons →
            <[p := v]> m !! q = None ∧ is_Some (dict_get new_member q)) as Hfresh'.
  { intros q Hq. destruct (Hfresh q) as [Hmq Hdq]; [by right|].
    split; [|done]. rewrite lookup_insert_ne; [done|]. by intros ->. }
  destruct (decide (9 ≤ len m)%Z) as [Hfull|Hroom].
  - rewrite group_dm_loop_full by done.
    rewrite decide_False; [done|]. simpl length. intros [?|?]; [done|lia].
  - rewrite (group_dm_loop_step _ p persons v) by (done || lia).
    rewrite IH by done. rewrite len_insert_fresh by done.
    assert (written new_member (p :: persons) m
            = written new_member persons (<[p := v]> m)) as Hw.
    { unfold written. simpl. by rewrite Hv. }
    destruct (decide (persons = [] ∨ _)) as [Hok|Hno].
    + rewrite decide_True; [by rewrite Hw|].
      right. simpl length. destruct Hok as [->|?]; simpl; lia.
    + rewrite decide_False; [done|].
      simpl length. intros [?|?]; [done|]. apply Hno. right. lia.
Qed.

(** What the checks of [add_to_room] have established when they pass. *)
Lemma add_to_room_checks_pass data org_id room_id member_id w room' :
  (add_to_room_checks data org_id room_id member_id w).1 = inr room' →
  ∃ room,
    rooms w !! (org_id, room_id) = Some room
    ∧ room_type room ≠ DM
    ∧ admin_of room member_id
    ∧ room' = set_room_members (room_members room') room
    ∧ dom (room_members room) ⊆ dom (room_members room')
    ∧ (room_type room = GROUP_DM → (len (room_members room) ≤ 9)%Z →
       (len (room_members room') ≤ 9)%Z)
    ∧ (NoDup (keys (new_member data)) →
       room_members room' = list_to_map (new_member data) ∪ room_members room).
Proof.
  rewrite add_to_room_checks_eq. cbn [fst].
  destruct (rooms w !! (org_id, room_id)) as [room|]; [|done].
  intros Hpass. exists room. split; [done|].
  destruct (room_type room) eqn:Ht; [done|..];
    (destruct (decide (admin_of room member_id)) as [Ha|]; [|done]).
  - pose proof (group_dm_loop_working_copy (new_member data) (keys (new_member data))
                  (room_members room)) as (Hdom & _ & Hcap).
    destruct (group_dm_loop _ _ _) as [[e|[]] m'] eqn:Hrun; [done|].
    simpl in *. injection Hpass as <-. simpl.
    split_and!; try done. intros Hnd. by eapply group_dm_loop_union.
  - injection Hpass as <-. simpl.
    split_and!; try done; [apply update_dom|].
    intros Hnd. by apply update_union.
Qed.

Lemma alter_set_room_members (rs : gmap (string * string) Room) k room m :
  rs !! k = Some room →
  alter (set_room_members m) k rs = <[k := set_room_members m room]> rs.
Proof.
  intros Hk. apply map_eq. intros k'.
  destruct (decide (k' = k)) as [->|Hne].
  - by rewrite lookup_alter_eq, lookup_insert_eq, Hk.
  - by rewrite lookup_alter_ne, lookup_insert_ne.
Qed.

(** X1: every 200 answer of AddMembers.  The room existed and was no DM
    room, the requesting member was an ADMIN of it, and the store accepted
    the update; the body of the answer is the room with the request laid
    over its old members; the store holds exactly that room, and a fetch
    right after the request returns it. *)
Theorem add_to_room_success data org_id room_id member_id w response :
  (add_to_room data org_id room_id member_id w).1 = inr response →
  NoDup (keys (new_member data)) →
  ∃ room,
    let merged :=
      set_room_members (list_to_map (new_member data) ∪ room_members room) room in
    let w' := (add_to_room data org_id room_id member_id w).2 in
    rooms w !! (org_id, room_id) = Some room
    ∧ room_type room ≠ DM
    ∧ admin_of room member_id
    ∧ zc_core w = Up
    ∧ response = {| content := room_content merged; status_code := 200 |}
    ∧ rooms w' = <[(org_id, room_id) := merged]> (rooms w)
    ∧ get_room org_id room_id w' = (inr (Some merged), w').
Proof.
  rewrite add_to_room_eq.
  destruct (add_to_room_checks _ _ _ _ _).1 as [e|room'] eqn:Hc; [done|].
  apply add_to_room_checks_pass in Hc as (room & Hk & Htype & Hadmin & Hroom' & _ & _ & Hunion).
  rewrite add_to_room_persist_eq.
  destruct (zc_core w) eqn:Hcore; [|done..].
  cbn [fst snd]. intros [= <-] Hnd. exists room.
  rewrite Hunion in Hroom' by done. rewrite Hunion by done.
  assert (rooms (set_rooms
                   (alter (set_room_members (list_to_map (new_member data) ∪ room_members room))
                      (org_id, room_id))
                   (sent data org_id room_id room' w))
          = <[(org_id, room_id) := room']> (rooms w)) as Hrooms.
  { simpl. rewrite (alter_set_room_members _ _ room) by done. by rewrite <-Hroom'. }
  rewrite <-Hroom'. split_and!; try done.
  unfold get_room. unfold_M. by rewrite (alter_set_room_members _ _ room), <-Hroom',
    lookup_insert_eq by done.
Qed.

Lemma add_to_room_success_witness :
  let data := {| new_member := [("n1", member_with MEMBER)] |} in
  let w' := (add_to_room data "org" "team8" "u1" (sample_world Up)).2 in
  ∃ room, rooms (sample_world Up) !! ("org", "team8") = Some room
          ∧ get_room "org" "team8" w'
            = (inr (Some (set_room_members
                            (list_to_map (new_member data) ∪ room_members room) room)), w').
Proof.
  destruct (add_to_room_success {| new_member := [("n1", member_with MEMBER)] |}
              "org" "team8" "u1" (sample_world Up)
              {| content := room_content
                   (set_room_members (<["n1" := member_with MEMBER]>
                                        (room_members sample_group8)) sample_group8);
                 status_code := 200 |})
    as (room & Hk & _ & _ & _ & _ & _ & Hfetch).
  - vm_compute. reflexivity.
  - apply (bool_decide_unpack _). vm_compute. exact I.
  - exists room. split; [exact Hk|exact Hfetch].
Defined.

(** X2: a batch of members who are all new to a GROUP_DM room, requested by
    an ADMIN of the room while the store accepts updates, is served exactly
    when the batch is empty or the room has place for the whole batch;
    otherwise it is refused with 400 and the world stays as it was. *)
Theorem group_dm_fresh_batch w org_id room_id room member_id data :
  rooms w !! (org_id, room_id) = Some room →
  room_type room = GROUP_DM →
  admin_of room member_id →
  zc_core w = Up →
  NoDup (keys (new_member data)) →
  (∀ p, p ∈ keys (new_member data) → room_members room !! p = None) →
  let out := add_to_room data org_id room_id member_id w in
  let fits := new_member data = []
              ∨ (len (room_members room) + Z.of_nat (length (new_member data)) ≤ 9)%Z in
  ((∃ response, out.1 = inr response) ↔ fits)
  ∧ (¬ fits → out = (inl (HTTPException 400 "the max number for a Group_DM is 9"), w)).
Proof.
  intros Hk Ht Ha Hup Hnd Hfresh out fits. unfold out.
  rewrite add_to_room_eq, add_to_room_checks_eq. cbn [fst].
  rewrite Hk, Ht. rewrite decide_True by done.
  rewrite group_dm_loop_fresh; [|done|].
  2: { intros p Hp. split; [by apply Hfresh|by apply dict_get_keys]. }
  assert (fits ↔ keys (new_member data) = []
                 ∨ (len (room_members room)
                    + Z.of_nat (length (keys (new_member data))) ≤ 9)%Z) as Hfits.
  { unfold fits, keys. rewrite length_fmap. split; (intros [H|H]; [left|by right]).
    - by rewrite H.
    - by apply fmap_nil_inv in H. }
  destruct (decide _) as [Hok|Hno].
  - rewrite add_to_room_persist_eq, Hup. split; [|tauto].
    split; [tauto|]. intros _. by eexists.
  - split; [|done]. split; [|tauto]. by intros [response ?].
Qed.

Lemma group_dm_fresh_batch_witness :
  let data := {| new_member := [("n1", member_with MEMBER)] |} in
  (∃ response, (add_to_room data "org" "team8" "u1" (sample_world Up)).1 = inr response)
  ↔ new_member data = []
    ∨ (len (room_members sample_group8) + Z.of_nat (length (new_member data)) ≤ 9)%Z.
Proof.
  refine (proj1 (group_dm_fresh_batch (sample_world Up) "org" "team8" sample_group8 "u1"
                   {| new_member := [("n1", member_with MEMBER)] |} _ _ _ _ _ _));
    try (vm_compute; reflexivity).
  - apply (bool_decide_unpack _). vm_compute. exact I.
  - intros p Hp. apply list_elem_of_singleton in Hp as ->. vm_compute. reflexivity.
Defined.

(** X3: the order of the request body decides.  In a GROUP_DM room of 8
    members an ADMIN sends one member who is in the room already and one
    who is new.  With the old member first the request is served; with the
    new member first it is refused with 400. *)
Theorem group_dm_order_matters w org_id room_id room member_id old fresh v_old v_fresh :
  rooms w !! (org_id, room_id) = Some room →
  room_type room = GROUP_DM →
  size (room_members room) = 8%nat →
  admin_of room member_id →
  is_Some (room_members room !! old) →
  room_members room !! fresh = None →
  zc_core w = Up →
  let merged :=
    set_room_members (<[fresh := v_fresh]> (<[old := v_old]> (room_members room))) room in
  (add_to_room {| new_member := [(old, v_old); (fresh, v_fresh)] |}
     org_id room_id member_id w).1
  = inr {| content := room_content merged; status_code := 200 |}
  ∧ add_to_room {| new_member := [(fresh, v_fresh); (old, v_old)] |}
      org_id room_id member_id w
    = (inl (HTTPException 400 "the max number for a Group_DM is 9"), w).
Proof.
  intros Hk Ht Hsize Ha [v Hold] Hfresh Hup merged.
  assert (old ≠ fresh) as Hne by (intros ->; congruence).
  rewrite !add_to_room_eq, !add_to_room_checks_eq. cbn [fst new_member].
  rewrite Hk, Ht. rewrite !decide_True by done.
  change (keys [(old, v_old); (fresh, v_fresh)]) with [old; fresh].
  change (keys [(fresh, v_fresh); (old, v_old)]) with [fresh; old].
  assert (len (<[old := v_old]> (room_members room)) = 8%Z) as Hlen8.
  { unfold len. rewrite map_size_insert_Some by done. lia. }
  split.
  - rewrite (group_dm_loop_step _ old [fresh] v_old).
    2: { unfold len. lia. }
    2: { simpl. by rewrite decide_True. }
    rewrite (group_dm_loop_step _ fresh [] v_fresh).
    2: { lia. }
    2: { simpl. rewrite decide_False by done. by rewrite decide_True. }
    simpl. by rewrite add_to_room_persist_eq, Hup.
  - rewrite (group_dm_loop_step _ fresh [old] v_fresh).
    2: { unfold len. lia. }
    2: { simpl. by rewrite decide_True. }
    rewrite group_dm_loop_full; [done|].
    rewrite len_insert_fresh by done. unfold len. lia.
Qed.

Lemma group_dm_order_matters_witness :
  add_to_room {| new_member := [("n1", member_with MEMBER); ("u2", member_with ADMIN)] |}
    "org" "team8" "u1" (sample_world Up)
  = (inl (HTTPException 400 "the max number for a Group_DM is 9"), sample_world Up).
Proof.
  refine (proj2 (group_dm_order_matters (sample_world Up) "org" "team8" sample_group8 "u1"
                   "u2" "n1" (member_with ADMIN) (member_with MEMBER) _ _ _ _ _ _ _));
    try (vm_compute; reflexivity).
  vm_compute. by eexists.
Defined.

(** ** Sequences of requests *)



Lemma add_to_room_rooms data org_id room_id member_id w :
  rooms (add_to_room data org_id room_id member_id w).2 =
  match (add_to_room_checks data org_id room_id member_id w).1, zc_core w with
  | inr room', Up =>
      alter (set_room_members (room_members room')) (org_id, room_id) (rooms w)
  | _, _ => rooms w
  end.
Proof.
  rewrite add_to_room_eq.
  destruct (add_to_room_checks _ _ _ _ _).1 as [e|room']; [done|].
  rewrite add_to_room_persist_eq. by destruct (zc_core w).
Qed.

Lemma handle_zc_core op w : zc_core (handle op w).2 = zc_core w.
Proof.
  destruct op; simpl.
  - rewrite add_to_room_eq.
    destruct (add_to_room_checks _ _ _ _ _).1 as [e|room']; [done|].
    rewrite add_to_room_persist_eq. by destruct (zc_core w) eqn:Hcore.
  - by rewrite remove_member_world.
Qed.

Lemma serve_zc_core ops w : zc_core (serve ops w) = zc_core w.
Proof.
  revert w. induction ops as [|op ops IH]; intros w; simpl; [done|].
  by rewrite IH, handle_zc_core.
Qed.





(** ** Edge cases of AddMembers *)

Lemma set_room_members_same room : set_room_members (room_members room) room = room.
Proof. by destruct room. Qed.

Lemma alter_same (rs : gmap (string * string) Room) k room :
  rs !! k = Some room → alter (set_room_members (room_members room)) k rs = rs.
Proof.
  intros Hk. rewrite (alter_set_room_members _ _ room) by done.
  rewrite set_room_members_same. by apply insert_id.
Qed.

(** X7: the empty request.  An ADMIN of a room that is no DM room who sends
    no member at all is served with 200 and the room as it is, however many
    members the room has; the unchanged membership is sent to the store all
    the same, and a notification without members is queued. *)
Theorem empty_batch_served w org_id room_id room member_id :
  rooms w !! (org_id, room_id) = Some room →
  room_type room ≠ DM →
  admin_of room member_id →
  zc_core w = Up →
  let data := {| new_member := [] |} in
  add_to_room data org_id room_id member_id w
  = (inr {| content := room_content room; status_code := 200 |},
     sent data org_id room_id room w).
Proof.
  intros Hk Ht Ha Hup data.
  rewrite add_to_room_eq, add_to_room_checks_eq. cbn [fst]. rewrite Hk.
  assert (∀ w', rooms w' = rooms w →
            set_rooms (alter (set_room_members (room_members room)) (org_id, room_id)) w'
            = w') as Hsame.
  { intros [rs ? ? ?] Hrs. simpl in Hrs. subst rs. unfold set_rooms. simpl.
    by rewrite alter_same. }
  destruct (room_type room) eqn:Htype; [done|..]; rewrite decide_True by done.
  - change (group_dm_loop (new_member data) (keys (new_member data)) (room_members room))
      with ((inr tt, room_members room) : (Exception + unit) * gmap string RoomMember).
    cbv beta iota.
    rewrite set_room_members_same, add_to_room_persist_eq, Hup. by rewrite Hsame.
  - change (update (new_member data) (room_members room)) with (room_members room).
    rewrite set_room_members_same, add_to_room_persist_eq, Hup. by rewrite Hsame.
Qed.

Lemma empty_batch_served_witness :
  let data := {| new_member := [] |} in
  add_to_room data "org" "team9" "u1" (sample_world Up)
  = (inr {| content := room_content sample_group9; status_code := 200 |},
     sent data "org" "team9" sample_group9 (sample_world Up)).
Proof.
  refine (empty_batch_served (sample_world Up) "org" "team9" sample_group9 "u1" _ _ _ _);
    vm_compute; (reflexivity || discriminate).
Defined.

Lemma group_dm_loop_raises new_member persons (m : gmap string RoomMember) e :
  (group_dm_loop new_member persons m).1 = inl e →
  (9 < len m + Z.of_nat (length persons))%Z.
Proof.
  revert m. induction persons as [|person persons IH]; intros m; simpl; [done|].
  unfold_M. case_bool_decide as Hfull; simpl; [lia|].
  destruct (dict_get new_member person) as [v|]; simpl.
  - intros Hraise. apply IH in Hraise.
    pose proof (len_insert_le m person v). unfold update in Hraise. simpl in Hraise. lia.
  - intros Hraise. apply IH in Hraise. lia.
Qed.

(** X9: what each failure of AddMembers tells.  An AttributeError means
    that the room does not exist; 403 that it is a DM room; 401 that the
    requesting member is no ADMIN of it; 400 that it is a GROUP_DM room
    whose members and the request together count more than 9; 424 that the
    checks passed and the store did not accept the update.  A TypeError
    never occurs. *)
Theorem add_to_room_failures data org_id room_id member_id w e :
  (add_to_room data org_id room_id member_id w).1 = inl e →
  match e with
  | AttributeError => rooms w !! (org_id, room_id) = None
  | TypeError => False
  | HTTPException code detail =>
      ∃ room, rooms w !! (org_id, room_id) = Some room
        ∧ ((code = 403%Z ∧ room_type room = DM)
           ∨ (code = 401%Z ∧ room_type room ≠ DM ∧ ¬ admin_of room member_id)
           ∨ (code = 400%Z ∧ room_type room = GROUP_DM ∧ admin_of room member_id
              ∧ (9 < len (room_members room)
                     + Z.of_nat (length (new_member data)))%Z)
           ∨ (code = 424%Z ∧ room_type room ≠ DM ∧ admin_of room member_id
              ∧ zc_core w ≠ Up))
  end.
Proof.
  rewrite add_to_room_eq.
  destruct (add_to_room_checks _ _ _ _ _).1 as [e'|room'] eqn:Hc.
  - intros [= ->]. rewrite add_to_room_checks_eq in Hc. cbn [fst] in Hc.
    destruct (rooms w !! (org_id, room_id)) as [room|]; [|by injection Hc as <-].
    destruct (room_type room) eqn:Ht.
    + injection Hc as <-. exists room. split; [done|]. by left.
    + destruct (decide (admin_of room member_id)) as [Ha|Ha].
      * pose proof (group_dm_loop_raises (new_member data) (keys (new_member data))
                      (room_members room)) as Hcount.
        pose proof (group_dm_loop_exception (new_member data) (keys (new_member data))
                      (room_members room)) as Hexn.
        destruct (group_dm_loop _ _ _) as [[e'|[]] m']; [|done].
        injection Hc as <-. rewrite (Hexn e') by done.
        exists room. split; [done|]. right. right. left.
        split_and!; try done. specialize (Hcount e' eq_refl).
        unfold keys in Hcount. by rewrite length_fmap in Hcount.
      * injection Hc as <-. exists room. split; [done|]. right. left.
        split_and!; [done|congruence|done].
    + destruct (decide (admin_of room member_id)) as [Ha|Ha]; [done|].
      injection Hc as <-. exists room. split; [done|]. right. left.
      split_and!; [done|congruence|done].
  - apply add_to_room_checks_pass in Hc as (room & Hk & Ht & Ha & _).
    rewrite add_to_room_persist_eq.
    destruct (zc_core w) eqn:Hcore; [done|..]; intros [= <-];
      (exists room; split; [done|]; right; right; right; by split_and!).
Qed.

Lemma add_to_room_failures_witness :
  ∃ room, rooms (sample_world Up) !! ("org", "team9") = Some room
    ∧ ((400 = 403 ∧ room_type room = DM)
       ∨ (400 = 401 ∧ room_type room ≠ DM ∧ ¬ admin_of room "u1")
       ∨ (400 = 400 ∧ room_type room = GROUP_DM ∧ admin_of room "u1"
          ∧ (9 < len (room_members room) + Z.of_nat 1))
       ∨ (400 = 424 ∧ room_type room ≠ DM ∧ admin_of room "u1"
          ∧ zc_core (sample_world Up) ≠ Up))%Z.
Proof.
  refine (add_to_room_failures {| new_member := [("n1", member_with MEMBER)] |}
            "org" "team9" "u1" (sample_world Up)
            (HTTPException 400 "the max number for a Group_DM is 9") _).
  vm_compute. reflexivity.
Defined.

(** ** Requests in a row *)

(** X11: a CHANNEL request sent twice.  When an ADMIN's AddMembers on a
    CHANNEL room is served and the request does not take the ADMIN role
    from the requesting member, sending the same request again is served
    with the same answer and leaves the stored rooms as the first one left
    them. *)
Theorem channel_add_twice w org_id room_id room member_id data response :
  rooms w !! (org_id, room_id) = Some room →
  room_type room = CHANNEL →
  NoDup (keys (new_member data)) →
  (∀ v, dict_get (new_member data) member_id = Some v → role v = ADMIN) →
  (add_to_room data org_id room_id member_id w).1 = inr response →
  let w' := (add_to_room data org_id room_id member_id w).2 in
  (add_to_room data org_id room_id member_id w').1 = inr response
  ∧ rooms (add_to_room data org_id room_id member_id w').2 = rooms w'.
Proof.
  intros Hk Ht Hnd Hkeep Hfirst w'.
  assert (∃ merged,
            merged = set_room_members (list_to_map (new_member data) ∪ room_members room) room
            ∧ admin_of room member_id ∧ zc_core w = Up
            ∧ response = {| content := room_content merged; status_code := 200 |}
            ∧ rooms w' = <[(org_id, room_id) := merged]> (rooms w))
    as (merged & Hmerged & Ha & Hup & -> & Hrooms).
  { unfold w'. revert Hfirst. rewrite add_to_room_eq, add_to_room_checks_eq. cbn [fst].
    rewrite Hk, Ht. destruct (decide (admin_of room member_id)); [|done].
    rewrite add_to_room_persist_eq. destruct (zc_core w) eqn:Hcore; [|done..].
    cbn [fst snd]. intros [= <-]. rewrite update_union by done.
    eexists. split_and!; try done. simpl.
    by rewrite (alter_set_room_members _ _ room). }
  assert (zc_core w' = Up) as Hup'.
  { unfold w'. change (zc_core (handle (AddMembers data org_id room_id member_id) w).2 = Up).
    by rewrite handle_zc_core. }
  assert (rooms w' !! (org_id, room_id) = Some merged) as Hk'.
  { by rewrite Hrooms, lookup_insert_eq. }
  assert (admin_of merged member_id) as Ha'.
  { unfold admin_of in *. rewrite Hmerged. simpl.
    destruct ((list_to_map (new_member data) : gmap string RoomMember) !! member_id)
      as [v|] eqn:Hv.
    - rewrite (lookup_union_Some_l _ _ _ v) by done. simpl. f_equal. apply Hkeep.
      apply elem_of_list_to_map in Hv; [|done].
      clear -Hv Hnd. induction (new_member data) as [|[k x] d IH]; [by apply elem_of_nil in Hv|].
      unfold keys in Hnd. simpl in Hnd. apply NoDup_cons in Hnd as [Hk Hnd]. simpl.
      apply elem_of_cons in Hv as [[= -> ->]|Hv]; [by rewrite decide_True|].
      rewrite decide_False; [by apply IH|].
      intros ->. apply Hk. apply list_elem_of_fmap. by exists (member_id, v).
    - by rewrite lookup_union_r. }
  assert (update (new_member data) (room_members merged) = room_members merged) as Hidem.
  { rewrite update_union by done. rewrite Hmerged. simpl.
    by rewrite (assoc_L (∪)), (idemp_L (∪)). }
  rewrite add_to_room_eq, add_to_room_checks_eq. cbn [fst].
  rewrite Hk'. replace (room_type merged) with CHANNEL by (by rewrite Hmerged).
  rewrite decide_True by done. rewrite Hidem, set_room_members_same.
  rewrite add_to_room_persist_eq, Hup'. cbn [fst snd]. split; [done|].
  simpl. by rewrite alter_same.
Qed.

Lemma channel_add_twice_witness :
  let data := {| new_member := [("dave", member_with MEMBER); ("bob", member_with ADMIN)] |} in
  let w' := (add_to_room data "org" "general" "alice" (sample_world Up)).2 in
  rooms (add_to_room data "org" "general" "alice" w').2 = rooms w'.
Proof.
  refine (proj2 (channel_add_twice (sample_world Up) "org" "general" sample_channel "alice"
                   {| new_member := [("dave", member_with MEMBER); ("bob", member_with ADMIN)] |}
                   _ _ _ _ _ _)).
  - vm_compute. reflexivity.
  - vm_compute. reflexivity.
  - apply (bool_decide_unpack _). vm_compute. exact I.
  - intros v. vm_compute. discriminate.
  - vm_compute. reflexivity.
Defined.

Lemma dict_get_list_to_map (d : list (string * RoomMember)) k :
  dict_get d k = (list_to_map d : gmap string RoomMember) !! k.
Proof.
  induction d as [|[k' v] d IH]; simpl; [done|].
  case_decide as Hk.
  - subst. by rewrite lookup_insert_eq.
  - by rewrite lookup_insert_ne.
Qed.

Lemma add_to_room_not_admin data org_id room_id member_id w room :
  rooms w !! (org_id, room_id) = Some room →
  room_type room ≠ DM →
  ¬ admin_of room member_id →
  add_to_room data org_id room_id member_id w
  = (inl (HTTPException 401 "member not in room or not an admin"), w).
Proof.
  intros Hk Ht Hna. rewrite add_to_room_eq, add_to_room_checks_eq. cbn [fst]. rewrite Hk.
  destruct (room_type room); [done|..]; by rewrite decide_False.
Qed.

(** X12: an ADMIN can give the role away.  When a served AddMembers request
    lists the requesting member with a role other than ADMIN, then, after
    any further requests among which no other member sends an AddMembers
    on that room, an AddMembers request of that member on the room is
    refused with 401 and changes nothing. *)
Theorem admin_gives_role_away w org_id room_id member_id data v response ops later :
  (add_to_room data org_id room_id member_id w).1 = inr response →
  NoDup (keys (new_member data)) →
  dict_get (new_member data) member_id = Some v →
  role v ≠ ADMIN →
  Forall (leaves_room_to org_id room_id member_id) ops →
  let w' := serve ops (add_to_room data org_id room_id member_id w).2 in
  add_to_room later org_id room_id member_id w'
  = (inl (HTTPException 401 "member not in room or not an admin"), w').
Proof.
  intros Hserved Hnd Hget Hrole Hops w'.
  set (lost := λ w0 : World,
         ∃ room', rooms w0 !! (org_id, room_id) = Some room'
                  ∧ room_type room' ≠ DM
                  ∧ room_members room' !! member_id = Some v).
  assert (∀ w0 room', rooms w0 !! (org_id, room_id) = Some room' →
            room_members room' !! member_id = Some v → ¬ admin_of room' member_id)
    as Hna.
  { intros w0 room' _ Hm. unfold admin_of. rewrite Hm. simpl. congruence. }
  assert (lost (add_to_room data org_id room_id member_id w).2) as Hlost.
  { revert Hserved. rewrite add_to_room_eq.
    destruct (add_to_room_checks _ _ _ _ _).1 as [e|room'] eqn:Hc; [done|].
    apply add_to_room_checks_pass in Hc
      as (room & Hk & Ht & _ & Hroom' & _ & _ & Hunion).
    rewrite add_to_room_persist_eq. destruct (zc_core w); [|done..].
    intros _. exists room'. cbn [snd]. split_and!.
    - simpl. rewrite (alter_set_room_members _ _ room) by done.
      by rewrite <-Hroom', lookup_insert_eq.
    - rewrite Hroom'. by destruct room.
    - rewrite Hunion by done. apply lookup_union_Some_l.
      by rewrite <-dict_get_list_to_map. }
  assert (lost w') as (room' & Hk' & Ht' & Hm').
  { unfold w'. clear w'. revert Hlost.
    generalize (add_to_room data org_id room_id member_id w).2.
    induction Hops as [|op ops Hop Hops IH]; intros w0 Hlost; simpl; [done|].
    apply IH. destruct Hlost as (room' & Hk' & Ht' & Hm').
    destruct op as [d o r m|]; simpl in *.
    2: { rewrite remove_member_world. by exists room'. }
    destruct (decide ((o, r) = (org_id, room_id))) as [[= -> ->]|Hother].
    - rewrite (Hop eq_refl eq_refl).
      rewrite (add_to_room_not_admin _ _ _ _ _ room') by eauto. by exists room'.
    - exists room'. split_and!; try done. rewrite add_to_room_rooms.
      destruct (add_to_room_checks _ _ _ _ _).1; [done|].
      destruct (zc_core w0); [|done..]. by rewrite lookup_alter_ne. }
  apply (add_to_room_not_admin _ _ _ _ _ room'); eauto.
Qed.

Lemma admin_gives_role_away_witness :
  let data := {| new_member := [("alice", member_with MEMBER)] |} in
  let ops :=
    [RemoveMember "org" "bob" "general" "bob";
     AddMembers {| new_member := [("erin", member_with ADMIN)] |} "org" "general" "alice";
     AddMembers {| new_member := [("n1", member_with MEMBER)] |} "org" "team8" "u1"] in
  let w' := serve ops (add_to_room data "org" "general" "alice" (sample_world Up)).2 in
  add_to_room {| new_member := [("dave", member_with MEMBER)] |} "org" "general" "alice" w'
  = (inl (HTTPException 401 "member not in room or not an admin"), w').
Proof.
  refine (admin_gives_role_away (sample_world Up) "org" "general" "alice"
            {| new_member := [("alice", member_with MEMBER)] |} (member_with MEMBER)
            {| content := room_content
                 (set_room_members (<["alice" := member_with MEMBER]>
                                      (room_members sample_channel)) sample_channel);
               status_code := 200 |}
            _ {| new_member := [("dave", member_with MEMBER)] |} _ _ _ _ _).
  - vm_compute. reflexivity.
  - apply (bool_decide_unpack _). vm_compute. exact I.
  - vm_compute. reflexivity.
  - vm_compute. discriminate.
  - repeat apply Forall_cons_2; [exact I|by intros _ _|by intros _ [=]|apply Forall_nil_2].
Defined.

(** ** Every answer of RemoveMember *)

(** X8: RemoveMember never changes the world: no stored room changes, no
    update is sent, no notification is queued.  It is never served and
    never ends with 424.  It ends in an AttributeError exactly when the
    room exists, is a CHANNEL room and the requesting member is one of its
    members, which are the requests that should remove somebody. *)
Theorem remove_member_answers org_id member_id room_id mem_id w :
  let out := remove_member org_id member_id room_id mem_id w in
  out.2 = w
  ∧ (∀ response, out.1 ≠ inr response)
  ∧ (∀ detail, out.1 ≠ inl (HTTPException 424 detail))
  ∧ (out.1 = inl AttributeError
     ↔ ∃ room, rooms w !! (org_id, room_id) = Some room
               ∧ room_type room = CHANNEL
               ∧ is_Some (room_members room !! member_id)).
Proof.
  intros out. unfold out. rewrite remove_member_eq. cbn [fst snd].
  destruct (rooms w !! (org_id, room_id)) as [room|] eqn:Hk.
  2: { split_and!; try done. split; [done|]. by intros (? & ? & _). }
  destruct (decide (room_type room = CHANNEL)) as [Ht|Ht].
  2: { split_and!; try done. split; [done|]. intros (? & [= <-] & ? & _). done. }
  destruct (decide (is_Some (room_members room !! member_id))) as [Hm|Hm].
  - split_and!; try done. split; [|done]. intros _. by exists room.
  - split_and!; try done. split; [done|]. intros (? & [= <-] & _ & ?). done.
Qed.
